(** * xltemplate.schema: the [TableSchema] dataclass and its operations

    A shallow embedding of [src/xltemplate/schema.py].  The dataclass is a
    record, its methods are computations in a small monad that threads the
    receiver ([self]) as state, reads the set of importable modules and may
    raise a Python exception.  The values a caller may hand to [validate_df]
    (annotated [Any] in the source) are a small universe of Python values. *)

From Stdlib Require Import List String ZArith Bool Lia.
Import ListNotations.
Local Open Scope string_scope.
Local Open Scope Z_scope.
Set Warnings "-register-all".

(** ** Python values and exceptions *)

(** The values that can reach [validate_df]: builtin scalars, strings, lists
    and plain instances carrying a dictionary of data attributes (kept as an
    association list, first binding wins) and no special method of their own
    (no [__eq__], no [__iter__]). A string is held as its UTF-8 bytes.
    [PyNaN] is the float [nan] that an unfilled cell of a frame holds. *)
Inductive pyval : Type :=
| PyNone
| PyInt (z : Z)
| PyNaN
| PyStr (s : string)
| PyList (items : list pyval)
| PyObj (attrs : list (string * pyval)).

(** The exception classes the module can meet. [ModuleNotFoundError] is a
    subclass of [ImportError]; [ValueError] is Python's invalid-argument
    exception. *)
Inductive exn : Type :=
| ModuleNotFoundError (name : string)
| ImportError (msg : string)
| AttributeError (name : string)
| TypeError (msg : string)
| ValueError (msg : string).

Inductive result (A : Type) : Type :=
| Ok (a : A)
| Raise (e : exn).
Arguments Ok {A} a.
Arguments Raise {A} e.

(** [except ImportError] catches the class and its subclass. *)
Definition is_ImportError (e : exn) : bool :=
  match e with
  | ModuleNotFoundError _ | ImportError _ => true
  | _ => false
  end.

(** ** The dataclass *)

Record TableSchema : Type := mkTableSchema {
  column_names : list string;
  groups : option (list (string * Z))
}.

(** The interpreter's environment: the names of the importable modules. *)
Record environment : Type := mkEnv { installed : list string }.

(** ** The method monad: reader of the environment, state [self], errors *)

Definition Py (A : Type) : Type :=
  environment -> TableSchema -> result A * TableSchema.

Definition ret {A} (a : A) : Py A := fun _ self => (Ok a, self).

Definition raise {A} (e : exn) : Py A := fun _ self => (Raise e, self).

Definition bind {A B} (m : Py A) (k : A -> Py B) : Py B :=
  fun env self =>
    match m env self with
    | (Ok a, self') => k a env self'
    | (Raise e, self') => (Raise e, self')
    end.

Notation "x <- m ;; k" := (bind m (fun x => k))
  (at level 61, m at next level, right associativity).
Notation "m ;;; k" := (bind m (fun _ => k))
  (at level 61, right associativity).

(** [try: m except <handles> as e: handler e] *)
Definition try_except {A} (m : Py A) (handles : exn -> bool)
    (handler : exn -> Py A) : Py A :=
  fun env self =>
    match m env self with
    | (Raise e, self') =>
        if handles e then handler e env self' else (Raise e, self')
    | r => r
    end.

Definition lift {A} (r : result A) : Py A := fun _ self => (r, self).

(** Reading [self.column_names], the only field a method reads. *)
Definition self_column_names : Py (list string) :=
  fun _ self => (Ok (column_names self), self).

(** Whether [import name] can find the module. *)
Definition importable (env : environment) (name : string) : bool :=
  existsb (String.eqb name) (installed env).

(** [import name] *)
Definition import_module (name : string) : Py unit :=
  fun env self =>
    if importable env name
    then (Ok tt, self)
    else (Raise (ModuleNotFoundError name), self).

(** The outcome of a method call and the receiver it leaves behind. *)
Definition outcome {A} (m : Py A) (env : environment) (self : TableSchema)
  : result A := fst (m env self).

Definition receiver_after {A} (m : Py A) (env : environment)
    (self : TableSchema) : TableSchema := snd (m env self).

(** ** Builtins used by the methods *)

Fixpoint assoc (name : string) (attrs : list (string * pyval))
  : option pyval :=
  match attrs with
  | [] => None
  | (k, v) :: rest => if String.eqb name k then Some v else assoc name rest
  end.

(** Attribute lookup. Only instances carry data attributes here; the builtin
    values have methods only, and none of them is called [columns]. *)
Definition lookup_attr (v : pyval) (name : string) : option pyval :=
  match v with
  | PyObj attrs => assoc name attrs
  | _ => None
  end.

(** [hasattr(v, name)] *)
Definition hasattr (v : pyval) (name : string) : bool :=
  match lookup_attr v name with
  | Some _ => true
  | None => false
  end.

(** [v.name] *)
Definition getattr (v : pyval) (name : string) : result pyval :=
  match lookup_attr v name with
  | Some a => Ok a
  | None => Raise (AttributeError name)
  end.

(** A continuation byte of UTF-8, [10xxxxxx]: it belongs to the character
    that the nearest earlier non-continuation byte starts. *)
Definition is_continuation (c : Ascii.ascii) : bool :=
  match c with
  | Ascii.Ascii _ _ _ _ _ _ b6 b7 => b7 && negb b6
  end.

(** Whether [s] begins in the middle of a character. *)
Definition continues (s : string) : bool :=
  match s with
  | String d _ => is_continuation d
  | EmptyString => false
  end.

(** Iterating over a string yields its characters (code points), each as a
    string of its own: a new character starts at every byte that is not a
    continuation byte. *)
Fixpoint code_points (s : string) : list string :=
  match s with
  | EmptyString => []
  | String c rest =>
      match code_points rest with
      | cp :: cps =>
          if continues rest then String c cp :: cps
          else String c EmptyString :: cp :: cps
      | [] => [String c EmptyString]
      end
  end.

(** [list(v)]: a list is copied, a string is split into its characters,
    anything else here is not iterable. *)
Definition py_list (v : pyval) : result (list pyval) :=
  match v with
  | PyList items => Ok items
  | PyStr s => Ok (map PyStr (code_points s))
  | _ => Raise (TypeError "object is not iterable")
  end.

(** [v == s] for a string [s]: only an equal string compares equal. The
    other values here leave the comparison to [str], which answers
    [NotImplemented], so the result is [False]. *)
Definition eq_str (v : pyval) (s : string) : bool :=
  match v with
  | PyStr t => String.eqb t s
  | _ => false
  end.

(** [l == names] for a list [l] and a list of strings [names]: same length
    and equal elements, position by position. *)
Fixpoint list_eq (l : list pyval) (names : list string) : bool :=
  match l, names with
  | [], [] => true
  | v :: l', s :: names' => eq_str v s && list_eq l' names'
  | _, _ => false
  end.

(** [range(n)] *)
Definition range (n : Z) : list Z := map Z.of_nat (seq 0 (Z.to_nat n)).

(** ** The tabular library *)

(** A frame: row labels, column labels, and one list of cells per row. *)
Record DataFrame : Type := mkDataFrame {
  df_index : list Z;
  df_columns : list pyval;
  df_values : list (list pyval)
}.

(** Modelled from the spec: the table-construction capability of the external
    tabular library, [pd.DataFrame(index=..., columns=...)], which is not part
    of this repository.  Given the column labels and the row labels it returns
    a frame with those columns, one row per row label, and every cell empty
    ([nan]); without [index] the frame has no rows. *)
Definition pd_DataFrame (index : option (list Z)) (columns : list pyval)
  : DataFrame :=
  let idx := match index with Some i => i | None => [] end in
  {| df_index := idx;
     df_columns := columns;
     df_values := map (fun _ => map (fun _ => PyNaN) columns) idx |}.

(** A frame seen as a Python object: it exposes [columns], [index] and
    [values]. *)
Definition as_object (d : DataFrame) : pyval :=
  PyObj [ ("columns", PyList (df_columns d));
          ("index", PyList (map PyInt (df_index d)));
          ("values", PyList (map PyList (df_values d))) ].

(** ** [TableSchema] *)

(** The [__init__] that [@dataclass] generates: it stores its two arguments
    and does nothing else ([groups] defaults to [None]). *)
Definition new_TableSchema (column_names : list string)
    (groups : option (list (string * Z))) : environment -> result TableSchema :=
  fun _ => Ok (mkTableSchema column_names groups).

Definition pandas_required : string :=
  "pandas is required to use empty_df(). Install it with: pip install pandas".

Definition empty_df (n_rows : Z) : Py DataFrame :=
  try_except (import_module "pandas") is_ImportError
    (fun _ => raise (ImportError pandas_required)) ;;;
  if 0 <? n_rows then
    cols <- self_column_names ;;
    ret (pd_DataFrame (Some (range n_rows)) (map PyStr cols))
  else
    cols <- self_column_names ;;
    ret (pd_DataFrame None (map PyStr cols)).

Definition validate_df (df : pyval) : Py bool :=
  if hasattr df "columns" then
    c <- lift (getattr df "columns") ;;
    labels <- lift (py_list c) ;;
    cols <- self_column_names ;;
    ret (list_eq labels cols)
  else
    ret false.

Definition __len__ : Py Z :=
  cols <- self_column_names ;;
  ret (Z.of_nat (List.length cols)).

(** The invariant the class documents for [groups] but does not check: the
    spans add up to the number of columns. *)
Definition spans_sum (g : list (string * Z)) : Z :=
  fold_right (fun p acc => snd p + acc) 0 g.

Definition spans_cover (self : TableSchema) : Prop :=
  match groups self with
  | Some g => spans_sum g = Z.of_nat (List.length (column_names self))
  | None => True
  end.

(** The ordered column-label list an input exposes, if it exposes one: the
    elements of its [columns], when it has that attribute and the value can
    be iterated. *)
Definition label_list (df : pyval) : option (list pyval) :=
  match lookup_attr df "columns" with
  | Some c => match py_list c with
              | Ok labels => Some labels
              | Raise _ => None
              end
  | None => None
  end.

(** The builtin labels that are not strings: [None], an [int], a [float]
    [nan], a [list]. *)
Definition builtin_non_string (v : pyval) : bool :=
  match v with
  | PyNone | PyInt _ | PyNaN | PyList _ => true
  | PyStr _ | PyObj _ => false
  end.

(** ** Sanity checks: the scenarios of the documentation *)

Definition with_pandas : environment := mkEnv ["pandas"].
Definition without_pandas : environment := mkEnv [].
Definition abc : TableSchema := mkTableSchema ["A"; "B"; "C"] None.
Definition xy : TableSchema :=
  mkTableSchema ["X"; "Y"] (Some [("Group1", 2)]).

(** The letter e with an acute accent (U+00E9) and the euro sign (U+20AC),
    two and three bytes long. *)
Definition e_acute : string :=
  String (Ascii.ascii_of_nat 195) (String (Ascii.ascii_of_nat 169) EmptyString).
Definition euro : string :=
  String (Ascii.ascii_of_nat 226)
    (String (Ascii.ascii_of_nat 130)
       (String (Ascii.ascii_of_nat 172) EmptyString)).

Example code_points_ascii : code_points "AB" = ["A"; "B"].
Proof. reflexivity. Qed.

Example code_points_mixed :
  code_points ("a" ++ e_acute ++ euro ++ "b") = ["a"; e_acute; euro; "b"].
Proof. reflexivity. Qed.

Example accented_column_validates :
  outcome (validate_df (PyObj [("columns", PyStr e_acute)])) without_pandas
    (mkTableSchema [e_acute] None) = Ok true.
Proof. reflexivity. Qed.

Example abc_len : outcome __len__ without_pandas abc = Ok 3.
Proof. reflexivity. Qed.

Example abc_empty_df :
  outcome (empty_df 0) with_pandas abc
  = Ok (mkDataFrame [] [PyStr "A"; PyStr "B"; PyStr "C"] []).
Proof. reflexivity. Qed.

Example abc_empty_df_2 :
  outcome (empty_df 2) with_pandas abc
  = Ok (mkDataFrame [0; 1] [PyStr "A"; PyStr "B"; PyStr "C"]
          [[PyNaN; PyNaN; PyNaN]; [PyNaN; PyNaN; PyNaN]]).
Proof. reflexivity. Qed.

Example abc_validates_own_frame :
  outcome (validate_df (as_object (pd_DataFrame None (map PyStr ["A"; "B"; "C"]))))
    without_pandas abc = Ok true.
Proof. reflexivity. Qed.

Example abc_rejects_reordered :
  outcome (validate_df (PyObj [("columns", PyList [PyStr "A"; PyStr "C"; PyStr "B"])]))
    without_pandas abc = Ok false.
Proof. reflexivity. Qed.

Example abc_rejects_shorter :
  outcome (validate_df (PyObj [("columns", PyList [PyStr "A"; PyStr "B"])]))
    without_pandas abc = Ok false.
Proof. reflexivity. Qed.

Example xy_len : outcome __len__ without_pandas xy = Ok 2.
Proof. reflexivity. Qed.

(** ** What one call does *)

Section Calls.
Variable env : environment.
Variable self : TableSchema.

Lemma list_eq_spec (l : list pyval) :
  forall names, list_eq l names = true <-> l = map PyStr names.
Proof.
  induction l as [|v l IH]; intros [|s names]; simpl;
    try (split; [discriminate | discriminate]); try tauto.
  rewrite andb_true_iff, IH. destruct v; simpl;
    try (split; [intros [H _]; discriminate H | intros H; discriminate H]).
  rewrite String.eqb_eq. split.
  - intros [-> ->]. reflexivity.
  - intros H. injection H as -> ->. auto.
Qed.

Lemma list_eq_false (l : list pyval) (names : list string) :
  list_eq l names = false <-> l <> map PyStr names.
Proof.
  rewrite <- list_eq_spec. destruct (list_eq l names); split;
    congruence.
Qed.

Lemma hasattr_lookup (v : pyval) (name : string) :
  hasattr v name = false <-> lookup_attr v name = None.
Proof.
  unfold hasattr. destruct (lookup_attr v name); split; congruence.
Qed.

Lemma validate_df_no_attr (df : pyval) :
  lookup_attr df "columns" = None ->
  validate_df df env self = (Ok false, self).
Proof.
  intros H. unfold validate_df, hasattr. rewrite H. reflexivity.
Qed.

Lemma validate_df_labels (df c : pyval) (labels : list pyval) :
  lookup_attr df "columns" = Some c ->
  py_list c = Ok labels ->
  validate_df df env self = (Ok (list_eq labels (column_names self)), self).
Proof.
  intros H L. unfold validate_df, hasattr, getattr, bind, lift.
  rewrite H, L. reflexivity.
Qed.

Lemma validate_df_not_iterable (df c : pyval) (e : exn) :
  lookup_attr df "columns" = Some c ->
  py_list c = Raise e ->
  validate_df df env self = (Raise e, self).
Proof.
  intros H L. unfold validate_df, hasattr, getattr, bind, lift.
  rewrite H, L. reflexivity.
Qed.

Lemma empty_df_run (n_rows : Z) :
  empty_df n_rows env self =
  (if importable env "pandas"
   then Ok (if 0 <? n_rows
            then pd_DataFrame (Some (range n_rows))
                   (map PyStr (column_names self))
            else pd_DataFrame None (map PyStr (column_names self)))
   else Raise (ImportError pandas_required),
   self).
Proof.
  unfold empty_df, bind, try_except, import_module.
  destruct (importable env "pandas"); simpl.
  - destruct (0 <? n_rows); reflexivity.
  - reflexivity.
Qed.

End Calls.

Lemma concat_code_points (s : string) :
  fold_right String.append EmptyString (code_points s) = s.
Proof.
  induction s as [|c rest IH]; [reflexivity|]. simpl.
  destruct (code_points rest) as [|cp cps].
  - simpl in IH. now rewrite <- IH.
  - destruct (continues rest); simpl in *; now rewrite IH.
Qed.

Lemma range_length (n : Z) : List.length (range n) = Z.to_nat n.
Proof. unfold range. now rewrite length_map, length_seq. Qed.

Lemma range_nth (n i : Z) :
  0 <= i < n -> nth_error (range n) (Z.to_nat i) = Some i.
Proof.
  intros H. unfold range. rewrite nth_error_map.
  rewrite nth_error_seq.
  destruct (Nat.ltb_spec (Z.to_nat i) (Z.to_nat n)) as [_|L]; [|lia].
  simpl. f_equal. lia.
Qed.

(** ** [empty_df] *)

(** C1 (as stated, refuted): with pandas importable, [empty_df(-1)] on the
    schema A, B, C raises nothing; it returns the frame with no rows, so it
    does not fail with [ValueError]. *)
Lemma empty_df_minus_one_returns :
  outcome (empty_df (-1)) with_pandas abc
  = Ok (mkDataFrame [] [PyStr "A"; PyStr "B"; PyStr "C"] [])
  /\ ~ (exists msg,
          outcome (empty_df (-1)) with_pandas abc = Raise (ValueError msg)).
Proof.
  split; [reflexivity|]. intros [msg H]. discriminate H.
Qed.

(** C1 (amended): for every negative [n_rows], [empty_df] behaves as for
    [n_rows = 0]: with pandas importable it returns the frame with no rows
    whose columns are [column_names]; without pandas it raises the
    [ImportError]; it never raises [ValueError]. *)
Theorem empty_df_negative (env : environment) (self : TableSchema) (n : Z) :
  n < 0 ->
  outcome (empty_df n) env self = outcome (empty_df 0) env self
  /\ (importable env "pandas" = true ->
      outcome (empty_df n) env self
      = Ok (mkDataFrame [] (map PyStr (column_names self)) []))
  /\ (importable env "pandas" = false ->
      outcome (empty_df n) env self = Raise (ImportError pandas_required))
  /\ (forall msg, outcome (empty_df n) env self <> Raise (ValueError msg)).
Proof.
  intros Hn. unfold outcome. rewrite !empty_df_run.
  assert (E : (0 <? n) = false) by (apply Z.ltb_ge; lia).
  rewrite E. simpl.
  repeat split.
  - intros ->. reflexivity.
  - intros ->. reflexivity.
  - intros msg. destruct (importable env "pandas"); discriminate.
Qed.

Lemma empty_df_negative_witness :
  -1 < 0
  /\ outcome (empty_df (-1)) with_pandas abc
     = outcome (empty_df 0) with_pandas abc.
Proof.
  assert (H : -1 < 0) by lia.
  split; [exact H|].
  exact (proj1 (empty_df_negative with_pandas abc (-1) H)).
Defined.

(** C3: with pandas importable and [n_rows >= 0], [empty_df] returns a frame
    whose columns are exactly [column_names] in order; for [n_rows = 0] it has
    no rows; for [n_rows > 0] it has [n_rows] rows labelled [0 .. n_rows-1],
    each with one cell per column, and every cell is [nan]. *)
Theorem empty_df_shape (env : environment) (self : TableSchema) (n : Z) :
  importable env "pandas" = true ->
  0 <= n ->
  exists t,
    outcome (empty_df n) env self = Ok t
    /\ df_columns t = map PyStr (column_names self)
    /\ (n = 0 -> df_index t = [] /\ df_values t = [])
    /\ List.length (df_index t) = Z.to_nat n
    /\ List.length (df_values t) = Z.to_nat n
    /\ (forall i, 0 <= i < n -> nth_error (df_index t) (Z.to_nat i) = Some i)
    /\ (forall row, In row (df_values t) ->
          List.length row = List.length (column_names self)
          /\ forall cell, In cell row -> cell = PyNaN).
Proof.
  intros Hp Hn. unfold outcome. rewrite empty_df_run, Hp. simpl.
  destruct (Z.ltb_spec 0 n) as [Hpos|Hz].
  - eexists. split; [reflexivity|]. simpl.
    split; [reflexivity|].
    split; [lia|].
    split; [apply range_length|].
    split; [rewrite length_map; apply range_length|].
    split; [intros i Hi; now apply range_nth|].
    intros row Hrow. apply in_map_iff in Hrow as [_ [<- _]].
    split; [now rewrite !length_map|].
    intros cell Hc. apply in_map_iff in Hc as [_ [<- _]]. reflexivity.
  - assert (n = 0) by lia. subst n.
    eexists. split; [reflexivity|]. simpl.
    repeat split; try reflexivity; try lia; contradiction.
Qed.

Lemma empty_df_shape_witness :
  importable with_pandas "pandas" = true /\ 0 <= 2
  /\ exists t, outcome (empty_df 2) with_pandas abc = Ok t
               /\ df_columns t = map PyStr (column_names abc).
Proof.
  split; [reflexivity|]. split; [lia|].
  destruct (empty_df_shape with_pandas abc 2) as [t [H1 [H2 _]]];
    [reflexivity | lia | ].
  exists t. split; assumption.
Defined.

(** ** [validate_df] *)

(** C2: when [df.columns] exists and [list(df.columns)] is the label list
    [labels], [validate_df] returns [True] exactly when [labels] is
    [column_names], element by element and in order, and [False] otherwise;
    in particular a list of another length is rejected. *)
Theorem validate_df_iff (env : environment) (self : TableSchema)
    (df c : pyval) (labels : list pyval) :
  lookup_attr df "columns" = Some c ->
  py_list c = Ok labels ->
  (outcome (validate_df df) env self = Ok true
   <-> labels = map PyStr (column_names self))
  /\ (outcome (validate_df df) env self = Ok false
      <-> labels <> map PyStr (column_names self))
  /\ (List.length labels <> List.length (column_names self) ->
      outcome (validate_df df) env self = Ok false).
Proof.
  intros H L. unfold outcome.
  rewrite (validate_df_labels env self df c labels H L). simpl.
  assert (T : Ok (list_eq labels (column_names self)) = Ok true
              <-> labels = map PyStr (column_names self)).
  { rewrite <- list_eq_spec. split; [intros [= E]; exact E | intros ->; reflexivity]. }
  assert (F : Ok (list_eq labels (column_names self)) = Ok false
              <-> labels <> map PyStr (column_names self)).
  { rewrite <- list_eq_false. split; [intros [= E]; exact E | intros ->; reflexivity]. }
  split; [exact T|]. split; [exact F|].
  intros Hlen. apply F. intros E. apply Hlen.
  rewrite E. apply length_map.
Qed.

Lemma validate_df_iff_witness :
  outcome (validate_df (PyObj [("columns", PyList [PyStr "A"; PyStr "B"; PyStr "C"])]))
    without_pandas abc = Ok true
  <-> [PyStr "A"; PyStr "B"; PyStr "C"] = map PyStr (column_names abc).
Proof.
  exact (proj1 (validate_df_iff without_pandas abc
           (PyObj [("columns", PyList [PyStr "A"; PyStr "B"; PyStr "C"])])
           (PyList [PyStr "A"; PyStr "B"; PyStr "C"])
           [PyStr "A"; PyStr "B"; PyStr "C"] eq_refl eq_refl)).
Defined.

(** C4 (as stated, refuted): an instance whose [columns] is the integer 3
    exposes no column-label list, yet [validate_df] does not return [False]
    for it: [hasattr] succeeds and [list(3)] raises [TypeError]. So it is not
    true that every input without a label list gets [False]. *)
Lemma validate_df_no_label_list_may_raise :
  label_list (PyObj [("columns", PyInt 3)]) = None
  /\ outcome (validate_df (PyObj [("columns", PyInt 3)])) without_pandas abc
     = Raise (TypeError "object is not iterable")
  /\ ~ (forall env self df,
          label_list df = None ->
          outcome (validate_df df) env self = Ok false).
Proof.
  split; [reflexivity|]. split; [reflexivity|].
  intros H.
  specialize (H without_pandas abc (PyObj [("columns", PyInt 3)]) eq_refl).
  discriminate H.
Qed.

(** C4 (amended): for every input that has no [columns] attribute,
    [validate_df] returns [False] and raises nothing; and among the inputs
    that expose no column-label list these are the only ones for which it
    returns [False]: the others make it raise. *)
Theorem validate_df_without_columns (env : environment) (self : TableSchema)
    (df : pyval) :
  (hasattr df "columns" = false ->
   label_list df = None /\ outcome (validate_df df) env self = Ok false)
  /\ (label_list df = None ->
      (outcome (validate_df df) env self = Ok false
       <-> hasattr df "columns" = false)
      /\ (hasattr df "columns" = true ->
          exists e, outcome (validate_df df) env self = Raise e)).
Proof.
  unfold label_list, outcome, hasattr.
  destruct (lookup_attr df "columns") as [c|] eqn:H.
  - destruct (py_list c) as [labels|e] eqn:L.
    + split; [discriminate|]. discriminate.
    + rewrite (validate_df_not_iterable env self df c e H L). simpl.
      split; [discriminate|]. intros _. split.
      * split; discriminate.
      * intros _. exists e. reflexivity.
  - rewrite (validate_df_no_attr env self df H). simpl.
    split; [auto|]. intros _. split; [tauto|discriminate].
Qed.

Lemma validate_df_without_columns_witness :
  hasattr (PyObj [("rows", PyList [])]) "columns" = false
  /\ label_list (PyObj [("rows", PyList [])]) = None
  /\ outcome (validate_df (PyObj [("rows", PyList [])])) without_pandas abc
     = Ok false.
Proof.
  split; [reflexivity|].
  exact (proj1 (validate_df_without_columns without_pandas abc
                  (PyObj [("rows", PyList [])])) eq_refl).
Defined.

(** C10: [validate_df] raises exactly when the input has a [columns]
    attribute whose value is not iterable; an instance whose [columns] is the
    integer 3 makes it raise [TypeError] instead of returning a boolean. *)
Theorem validate_df_raises_iff (env : environment) (self : TableSchema) :
  (forall df,
     (exists e, outcome (validate_df df) env self = Raise e)
     <-> (exists c e, lookup_attr df "columns" = Some c
                      /\ py_list c = Raise e))
  /\ outcome (validate_df (PyObj [("columns", PyInt 3)])) env self
     = Raise (TypeError "object is not iterable").
Proof.
  split; [|reflexivity].
  intros df. unfold outcome.
  destruct (lookup_attr df "columns") as [c|] eqn:H.
  - destruct (py_list c) as [labels|e] eqn:L.
    + rewrite (validate_df_labels env self df c labels H L). simpl. split.
      * intros [e E]. discriminate E.
      * intros [c' [e [[= <-] E]]]. congruence.
    + rewrite (validate_df_not_iterable env self df c e H L). simpl. split.
      * intros _. exists c, e. auto.
      * intros _. exists e. reflexivity.
  - rewrite (validate_df_no_attr env self df H). simpl. split.
    + intros [e E]. discriminate E.
    + intros [c [e [E _]]]. discriminate E.
Qed.

(** ** Construction and size *)

(** C6: [len(TableSchema(column_names, groups))] is [len(column_names)], and
    [__len__] raises on no schema. *)
Theorem len_is_number_of_columns (env : environment) (cols : list string)
    (grps : option (list (string * Z))) :
  (exists self,
     new_TableSchema cols grps env = Ok self
     /\ outcome __len__ env self = Ok (Z.of_nat (List.length cols)))
  /\ (forall self,
        outcome __len__ env self
        = Ok (Z.of_nat (List.length (column_names self)))).
Proof.
  split.
  - eexists. split; reflexivity.
  - intros self. reflexivity.
Qed.

(** C7: constructing a schema succeeds for every [column_names] and every
    [groups] and stores both unchanged; nothing checks that the spans add up
    to the number of columns, and a schema whose spans do not is constructed
    all the same. *)
Theorem construction_never_fails (env : environment) (cols : list string)
    (grps : option (list (string * Z))) :
  (exists self,
     new_TableSchema cols grps env = Ok self
     /\ column_names self = cols
     /\ groups self = grps)
  /\ (exists self,
        new_TableSchema ["X"; "Y"] (Some [("Group1", 5)]) env = Ok self
        /\ ~ spans_cover self).
Proof.
  split.
  - eexists. repeat split.
  - eexists. split; [reflexivity|]. unfold spans_cover. simpl. lia.
Qed.

(** C5: the [ImportError] belongs to the call of [empty_df] alone. In every
    environment a schema can be constructed, measured and used for validation
    without any import error, and [empty_df] raises the [ImportError] exactly
    when pandas cannot be imported. *)
Theorem import_error_only_from_empty_df (env : environment)
    (cols : list string) (grps : option (list (string * Z))) :
  exists self,
    new_TableSchema cols grps env = Ok self
    /\ outcome __len__ env self = Ok (Z.of_nat (List.length cols))
    /\ (forall df e, outcome (validate_df df) env self = Raise e ->
                     is_ImportError e = false)
    /\ (forall n, outcome (empty_df n) env self
                  = Raise (ImportError pandas_required)
                  <-> importable env "pandas" = false)
    /\ (forall n e, outcome (empty_df n) env self = Raise e ->
                    importable env "pandas" = false).
Proof.
  eexists. split; [reflexivity|]. split; [reflexivity|].
  split; [|split].
  - intros df e. unfold outcome.
    destruct (lookup_attr df "columns") as [c|] eqn:H.
    + destruct (py_list c) as [labels|e'] eqn:L.
      * rewrite (validate_df_labels _ _ df c labels H L). discriminate.
      * rewrite (validate_df_not_iterable _ _ df c e' H L). simpl.
        intros [= <-]. destruct c; simpl in L; try discriminate L;
          injection L as <-; reflexivity.
    + rewrite (validate_df_no_attr _ _ df H). discriminate.
  - intros n. unfold outcome. rewrite empty_df_run. simpl.
    destruct (importable env "pandas"); split; congruence.
  - intros n e. unfold outcome. rewrite empty_df_run. simpl.
    destruct (importable env "pandas"); [discriminate | reflexivity].
Qed.

(** ** Frame and independence *)

(** C8: two schemas with the same [column_names] give the same [empty_df]
    result for every row count and the same [validate_df] result for every
    input, whatever their [groups]. *)
Theorem groups_do_not_matter (env : environment) (s1 s2 : TableSchema) :
  column_names s1 = column_names s2 ->
  (forall n, outcome (empty_df n) env s1 = outcome (empty_df n) env s2)
  /\ (forall df, outcome (validate_df df) env s1
                 = outcome (validate_df df) env s2).
Proof.
  intros E. split.
  - intros n. unfold outcome. rewrite !empty_df_run, E. reflexivity.
  - intros df. unfold outcome.
    destruct (lookup_attr df "columns") as [c|] eqn:H.
    + destruct (py_list c) as [labels|e] eqn:L.
      * rewrite !(validate_df_labels _ _ df c labels H L), E. reflexivity.
      * rewrite !(validate_df_not_iterable _ _ df c e H L). reflexivity.
    + rewrite !(validate_df_no_attr _ _ df H). reflexivity.
Qed.

Lemma groups_do_not_matter_witness :
  column_names xy = column_names (mkTableSchema ["X"; "Y"] None)
  /\ outcome (empty_df 3) with_pandas xy
     = outcome (empty_df 3) with_pandas (mkTableSchema ["X"; "Y"] None).
Proof.
  split; [reflexivity|].
  exact (proj1 (groups_do_not_matter with_pandas xy
                  (mkTableSchema ["X"; "Y"] None) eq_refl) 3).
Defined.

(** C9: a call of [__len__], [empty_df] or [validate_df] leaves the receiver
    as it was, whether the call returns or raises: [column_names] and
    [groups] are unchanged. *)
Theorem methods_leave_self_unchanged (env : environment)
    (self : TableSchema) :
  receiver_after __len__ env self = self
  /\ (forall n, receiver_after (empty_df n) env self = self)
  /\ (forall df, receiver_after (validate_df df) env self = self).
Proof.
  unfold receiver_after. split; [reflexivity|]. split.
  - intros n. now rewrite empty_df_run.
  - intros df.
    destruct (lookup_attr df "columns") as [c|] eqn:H.
    + destruct (py_list c) as [labels|e] eqn:L.
      * now rewrite (validate_df_labels _ _ df c labels H L).
      * now rewrite (validate_df_not_iterable _ _ df c e H L).
    + now rewrite (validate_df_no_attr _ _ df H).
Qed.

(** ** How the operations compose *)

Lemma map_PyStr_inj (a b : list string) :
  map PyStr a = map PyStr b -> a = b.
Proof.
  revert b. induction a as [|x a IH]; intros [|y b] H; simpl in H;
    try discriminate H; [reflexivity|].
  injection H as -> H. f_equal. now apply IH.
Qed.

Lemma empty_df_columns (env : environment) (self : TableSchema) (n : Z)
    (t : DataFrame) :
  outcome (empty_df n) env self = Ok t ->
  df_columns t = map PyStr (column_names self).
Proof.
  unfold outcome. rewrite empty_df_run. simpl.
  destruct (importable env "pandas"); [|discriminate].
  intros [= <-]. destruct (0 <? n); reflexivity.
Qed.

(** X1: building a frame with [empty_df] and handing it straight to
    [validate_df] of the same schema gives [True], for every row count
    (negative ones included) and every schema, and the schema is left as it
    was. *)
Theorem empty_df_then_validate_df (env : environment) (self : TableSchema)
    (n : Z) :
  importable env "pandas" = true ->
  (t <- empty_df n ;; validate_df (as_object t)) env self = (Ok true, self).
Proof.
  intros Hp. unfold bind at 1. rewrite empty_df_run, Hp.
  set (t := if 0 <? n then _ else _).
  assert (C : df_columns t = map PyStr (column_names self))
    by (subst t; destruct (0 <? n); reflexivity).
  rewrite (validate_df_labels env self (as_object t)
             (PyList (df_columns t)) (df_columns t) eq_refl eq_refl).
  f_equal. f_equal. apply list_eq_spec. exact C.
Qed.

Lemma empty_df_then_validate_df_witness :
  importable with_pandas "pandas" = true
  /\ (t <- empty_df 4 ;; validate_df (as_object t)) with_pandas xy
     = (Ok true, xy).
Proof.
  split; [reflexivity|].
  exact (empty_df_then_validate_df with_pandas xy 4 eq_refl).
Defined.

(** X2: a frame built by [empty_df] of one schema is accepted by
    [validate_df] of another schema exactly when the two schemas have the same
    [column_names]; otherwise it is rejected with [False]. *)
Theorem validate_df_of_other_schema (env env' : environment)
    (s1 s2 : TableSchema) (n : Z) (t : DataFrame) :
  outcome (empty_df n) env s1 = Ok t ->
  (outcome (validate_df (as_object t)) env' s2 = Ok true
   <-> column_names s1 = column_names s2)
  /\ (outcome (validate_df (as_object t)) env' s2 = Ok false
      <-> column_names s1 <> column_names s2).
Proof.
  intros H. apply empty_df_columns in H. unfold outcome.
  rewrite (validate_df_labels env' s2 (as_object t)
             (PyList (df_columns t)) (df_columns t) eq_refl eq_refl).
  simpl. rewrite H. split.
  - split.
    + intros [= E]. apply list_eq_spec in E. now apply map_PyStr_inj.
    + intros E. f_equal. apply list_eq_spec. now rewrite E.
  - split.
    + intros [= E] E'. apply list_eq_false in E. apply E. now rewrite E'.
    + intros E. f_equal. apply list_eq_false. intros E'.
      apply E. now apply map_PyStr_inj.
Qed.

Lemma validate_df_of_other_schema_witness :
  outcome (validate_df
             (as_object (pd_DataFrame None (map PyStr (column_names xy)))))
    without_pandas abc = Ok false
  <-> column_names xy <> column_names abc.
Proof.
  exact (proj2 (validate_df_of_other_schema with_pandas without_pandas
                  xy abc 0 _ eq_refl)).
Defined.

(** X3: the frame that [empty_df] returns has as many columns as [__len__]
    reports, and every one of its rows has that many cells; duplicated column
    names are kept, not merged. *)
Theorem empty_df_width_is_len (env : environment) (self : TableSchema)
    (n : Z) (t : DataFrame) :
  outcome (empty_df n) env self = Ok t ->
  outcome __len__ env self = Ok (Z.of_nat (List.length (df_columns t)))
  /\ Forall (fun row => List.length row = List.length (df_columns t))
       (df_values t).
Proof.
  unfold outcome. rewrite empty_df_run. simpl.
  destruct (importable env "pandas"); [|discriminate].
  intros [= <-]. split.
  - destruct (0 <? n); simpl; now rewrite length_map.
  - apply Forall_forall. intros row Hrow.
    destruct (0 <? n); simpl in *; [|contradiction].
    apply in_map_iff in Hrow as [_ [<- _]]. now rewrite !length_map.
Qed.

Lemma empty_df_width_is_len_witness :
  outcome __len__ with_pandas (mkTableSchema ["A"; "A"] None)
  = Ok (Z.of_nat (List.length
          (df_columns (pd_DataFrame (Some (range 2)) (map PyStr ["A"; "A"]))))).
Proof.
  exact (proj1 (empty_df_width_is_len with_pandas
                  (mkTableSchema ["A"; "A"] None) 2 _ eq_refl)).
Defined.

(** ** Edge behaviour of [validate_df] *)

(** X4: when [df.columns] is a string, [list(df.columns)] splits it into
    its characters, so [validate_df] raises nothing and returns [True] exactly
    when [column_names] are the one-character strings of that string, in
    order. *)
Theorem validate_df_string_columns (env : environment) (self : TableSchema)
    (df : pyval) (s : string) :
  lookup_attr df "columns" = Some (PyStr s) ->
  (exists b, outcome (validate_df df) env self = Ok b)
  /\ (outcome (validate_df df) env self = Ok true
      <-> column_names self = code_points s).
Proof.
  intros H. unfold outcome.
  rewrite (validate_df_labels env self df (PyStr s) _ H eq_refl). simpl.
  split; [eexists; reflexivity|]. split.
  - intros [= E]. apply list_eq_spec in E. symmetry. now apply map_PyStr_inj.
  - intros E. f_equal. apply list_eq_spec. now rewrite E.
Qed.

Lemma validate_df_string_columns_witness :
  outcome (validate_df (PyObj [("columns", PyStr "ABC")])) without_pandas abc
  = Ok true
  <-> column_names abc = code_points "ABC".
Proof.
  exact (proj2 (validate_df_string_columns without_pandas abc
                  (PyObj [("columns", PyStr "ABC")]) "ABC" eq_refl)).
Defined.

(** X5: a single builtin label that is not a string ([None], an integer, a
    [nan], a list) anywhere in [list(df.columns)] makes [validate_df] return
    [False], whatever the schema. *)
Theorem validate_df_non_string_label (env : environment)
    (self : TableSchema) (df c : pyval) (labels : list pyval) (v : pyval) :
  lookup_attr df "columns" = Some c ->
  py_list c = Ok labels ->
  In v labels ->
  builtin_non_string v = true ->
  outcome (validate_df df) env self = Ok false.
Proof.
  intros H L Hin Hv. unfold outcome.
  rewrite (validate_df_labels env self df c labels H L). simpl.
  f_equal. apply list_eq_false. intros E. rewrite E in Hin.
  apply in_map_iff in Hin as [s [<- _]]. discriminate Hv.
Qed.

Lemma validate_df_non_string_label_witness :
  outcome (validate_df (PyObj [("columns", PyList [PyInt 0; PyInt 1])]))
    without_pandas xy = Ok false.
Proof.
  apply (validate_df_non_string_label without_pandas xy
           (PyObj [("columns", PyList [PyInt 0; PyInt 1])])
           (PyList [PyInt 0; PyInt 1]) [PyInt 0; PyInt 1] (PyInt 1)
           eq_refl eq_refl).
  - right. left. reflexivity.
  - reflexivity.
Defined.

(** X6: [validate_df] looks at [df.columns] and at nothing else of its
    argument: two inputs with the same [columns] (or both without one) get
    the same answer, and the same exception if there is one, whatever their
    rows, index or other attributes. *)
Theorem validate_df_reads_only_columns (env : environment)
    (self : TableSchema) (df1 df2 : pyval) :
  lookup_attr df1 "columns" = lookup_attr df2 "columns" ->
  validate_df df1 env self = validate_df df2 env self.
Proof.
  intros E.
  destruct (lookup_attr df2 "columns") as [c|] eqn:H2.
  - destruct (py_list c) as [labels|e] eqn:L.
    + now rewrite (validate_df_labels env self df1 c labels E L),
                  (validate_df_labels env self df2 c labels H2 L).
    + now rewrite (validate_df_not_iterable env self df1 c e E L),
                  (validate_df_not_iterable env self df2 c e H2 L).
  - now rewrite (validate_df_no_attr env self df1 E),
                (validate_df_no_attr env self df2 H2).
Qed.

Lemma validate_df_reads_only_columns_witness :
  validate_df (as_object (pd_DataFrame (Some (range 3)) (map PyStr ["X"; "Y"])))
    without_pandas xy
  = validate_df (PyObj [("name", PyNone); ("columns", PyList [PyStr "X"; PyStr "Y"])])
      without_pandas xy.
Proof.
  exact (validate_df_reads_only_columns without_pandas xy _ _ eq_refl).
Defined.

(** ** Exceptions of [empty_df] *)

(** X7: whatever [empty_df] raises is the [ImportError] that carries the
    install hint; the [ModuleNotFoundError] of the failed import is caught and
    never reaches the caller, and this happens before the row count is looked
    at. *)
Theorem empty_df_raises_only_the_hint (env : environment)
    (self : TableSchema) (n : Z) (e : exn) :
  outcome (empty_df n) env self = Raise e ->
  e = ImportError pandas_required
  /\ forall m, outcome (empty_df m) env self = Raise e.
Proof.
  unfold outcome. rewrite empty_df_run. simpl.
  destruct (importable env "pandas") eqn:Hp; [discriminate|].
  intros [= <-]. split; [reflexivity|].
  intros m. rewrite empty_df_run, Hp. reflexivity.
Qed.

Lemma empty_df_raises_only_the_hint_witness :
  ImportError pandas_required = ImportError pandas_required
  /\ forall m, outcome (empty_df m) without_pandas abc
               = Raise (ImportError pandas_required).
Proof.
  exact (empty_df_raises_only_the_hint without_pandas abc 5
           (ImportError pandas_required) eq_refl).
Defined.
